(** * Domain-wall pair conversion notebook: the notebook's own logic

    The notebook (src/notebook-full.ipynb) is orchestration code over the
    Ubermag stack.  What it authors itself is
      - a handful of module-level constants (cell 7),
      - a region and a cell size (cell 11),
      - two functions of a position, [Ms_func] and [init_m] (cell 14),
      - a straight-line sequence of calls into external libraries.

    Python values are modelled as they are at run time: [int] as [Z],
    [float] as IEEE 754 binary64 (the kernel's primitive floats), tuples and
    lists as lists, module globals as a finite map from names to values.
    Exceptions are explicit results.  Objects owned by the external
    libraries are opaque: they are represented by the expression that
    produced them, and every call into a library is recorded in a trace.

    Cells are numbered by their position in the notebook, from 0, markdown
    cells included. *)

From Stdlib Require Import ZArith Floats Lia QArith Qabs Reals.
From Stdlib Require Uint63.
From stdpp Require Import base option list strings gmap.

(* A decimal float literal denotes the nearest binary64 value, as it does
   in Python; [literals_rounded] checks this for the mesh literals. *)
Set Warnings "-inexact-float,-register-all".

Local Open Scope Z_scope.

(** ** Python values *)

Module Py.

Inductive value : Type :=
| VNone
| VBool (b : bool)
| VInt (n : Z)
| VFloat (f : float)
| VStr (s : string)
| VTuple (vs : list value)
| VList (vs : list value)
| VDict (kvs : list (value * value))
(* a function object created by a [def] of the notebook *)
| VFun (name : string)
(* objects owned by the external libraries, named by their provenance *)
| VModule (name : string)
| VGet (obj : value) (attr : string)
| VItem (obj : value) (key : value)
| VRes (callee : value) (args : list value) (kwargs : list (string * value))
| VOp (op : string) (l r : value).

Inductive exn : Type :=
| TypeError
| ValueError
| AttributeError
| NameError (x : string).

Inductive result (A : Type) : Type :=
| Ok (a : A)
| Raise (e : exn).
Arguments Ok {A} a.
Arguments Raise {A} e.

Definition rbind {A B} (r : result A) (k : A -> result B) : result B :=
  match r with
  | Ok a => k a
  | Raise e => Raise e
  end.

(** *** Numbers and their comparisons

    [bool] is a subclass of [int]; [int] and [float] compare by exact
    value, never by converting the integer with rounding.  The numbers of
    the model are Python's own [bool], [int] and [float]: what a library's
    number type (a numpy scalar, say) does under comparison is not
    modelled, and the properties below are stated on the notebook's own
    values. *)

Inductive num : Type :=
| NInt (n : Z)
| NFloat (f : float).

Definition to_num (v : value) : option num :=
  match v with
  | VBool b => Some (NInt (Z.b2z b))
  | VInt n => Some (NInt n)
  | VFloat f => Some (NFloat f)
  | _ => None
  end.

(** Exact comparison of a binary64 value with an integer; [None] for NaN. *)
Definition float_cmp_Z (f : float) (n : Z) : option comparison :=
  match Prim2SF f with
  | S754_nan => None
  | S754_infinity true => Some Lt
  | S754_infinity false => Some Gt
  | S754_zero _ => Some (0 ?= n)
  | S754_finite s m e =>
      let v := if s then Z.neg m else Z.pos m in
      if 0 <=? e then Some (v * 2 ^ e ?= n) else Some (v ?= n * 2 ^ (- e))
  end.

Definition num_ltb (a b : num) : bool :=
  match a, b with
  | NInt x, NInt y => x <? y
  | NFloat x, NFloat y => PrimFloat.ltb x y
  | NFloat x, NInt y =>
      match float_cmp_Z x y with Some Lt => true | _ => false end
  | NInt x, NFloat y =>
      match float_cmp_Z y x with Some Gt => true | _ => false end
  end.

Definition num_leb (a b : num) : bool :=
  match a, b with
  | NInt x, NInt y => x <=? y
  | NFloat x, NFloat y => PrimFloat.leb x y
  | NFloat x, NInt y =>
      match float_cmp_Z x y with Some Lt | Some Eq => true | _ => false end
  | NInt x, NFloat y =>
      match float_cmp_Z y x with Some Gt | Some Eq => true | _ => false end
  end.

Definition num_abs (a : num) : num :=
  match a with
  | NInt x => NInt (Z.abs x)
  | NFloat x => NFloat (PrimFloat.abs x)
  end.

Definition of_num (a : num) : value :=
  match a with
  | NInt x => VInt x
  | NFloat x => VFloat x
  end.

(** [a < b] and [a > b] where one operand is a number literal, as in the
    two functions: an operand that is not a number raises [TypeError]. *)
Definition py_lt (a b : value) : result bool :=
  match to_num a, to_num b with
  | Some x, Some y => Ok (num_ltb x y)
  | _, _ => Raise TypeError
  end.

Definition py_gt (a b : value) : result bool := py_lt b a.

(** [abs(v)] *)
Definition py_abs (v : value) : result value :=
  match to_num v with
  | Some x => Ok (of_num (num_abs x))
  | None => Raise TypeError
  end.

(** [-v] *)
Definition py_neg (v : value) : result value :=
  match to_num v with
  | Some (NInt x) => Ok (VInt (- x))
  | Some (NFloat x) => Ok (VFloat (PrimFloat.opp x))
  | None => Raise TypeError
  end.

(** The items an unpacking assignment iterates over, for the notebook's
    own values: tuples, lists, strings and dicts iterate, scalars and
    functions do not.  A library's object (a numpy array, say) may iterate
    too; that is outside this model, which gives it no items. *)
Fixpoint chars (s : string) : list value :=
  match s with
  | EmptyString => []
  | String c s' => VStr (String c EmptyString) :: chars s'
  end.

Definition iter_items (v : value) : result (list value) :=
  match v with
  | VTuple vs | VList vs => Ok vs
  | VStr s => Ok (chars s)
  | VDict kvs => Ok (map fst kvs)
  | _ => Raise TypeError
  end.

(** [x, y, z = p] *)
Definition unpack3 (p : value) : result (value * value * value) :=
  rbind (iter_items p) (fun vs =>
    match vs with
    | [x; y; z] => Ok (x, y, z)
    | _ => Raise ValueError
    end).

End Py.
Export Py.

(** ** The notebook's state: module globals and the trace of external effects *)

Inductive event : Type :=
| EvMagic (line : string)
| EvImport (module : string)
| EvBind (x : string) (v : value)
| EvSetAttr (obj : value) (attr : string) (v : value)
| EvCall (callee : value) (args : list value) (kwargs : list (string * value)).

Record state : Type := mkState {
  globals : gmap string value;
  trace : list event
}.

Definition init_state : state := mkState ∅ [].

Definition log (ev : event) (s : state) : state :=
  mkState (globals s) (trace s ++ [ev]).

(** Computations of the notebook: they read and write the state and may
    raise.  An exception undoes nothing: what was written before it stays
    written. *)
Definition nb (A : Type) : Type := state -> result A * state.

Definition ret {A} (a : A) : nb A := fun s => (Ok a, s).

Definition bind {A B} (c : nb A) (k : A -> nb B) : nb B :=
  fun s =>
    match c s with
    | (Ok a, s') => k a s'
    | (Raise e, s') => (Raise e, s')
    end.

Definition lift {A} (r : result A) : nb A := fun s => (r, s).

Declare Scope nb_scope.
Delimit Scope nb_scope with nb.
Notation "x <- c ;; k" := (bind c (fun x => k))
  (at level 100, c at next level, right associativity) : nb_scope.
Notation "c ;; k" := (bind c (fun _ => k))
  (at level 100, right associativity) : nb_scope.
Local Open Scope nb_scope.

(** Reading a global name. *)
Definition name (x : string) : nb value :=
  fun s =>
    match globals s !! x with
    | Some v => (Ok v, s)
    | None => (Raise (NameError x), s)
    end.

(** [a or b] and [a and b] on conditions: the right operand is evaluated
    only when the left one does not decide. *)
Definition or_ (a b : nb bool) : nb bool :=
  x <- a ;; if (x : bool) then ret true else b.

Definition and_ (a b : nb bool) : nb bool :=
  x <- a ;; if (x : bool) then b else ret false.

(** ** The two functions of cell 14 *)

(** [[
def Ms_func(p):
    x, y, z = p
    if x > 0 or abs(y) < 20e-9:
        return Ms
    return 0
]] *)
Definition Ms_func (p : value) : nb value :=
  xyz <- lift (unpack3 p) ;;
  let '(x, y, z) := xyz in
  c <- or_ (lift (py_gt x (VInt 0)))
           (a <- lift (py_abs y) ;; lift (py_lt a (VFloat 20e-9))) ;;
  if (c : bool) then name "Ms" else ret (VInt 0).

(** [[
def init_m(p):
    x, y, z = p
    if -60e-9 < x < -20e-9:
        return (0, 0, -1)
    return (0, 0, 1)
]] *)
Definition init_m (p : value) : nb value :=
  xyz <- lift (unpack3 p) ;;
  let '(x, y, z) := xyz in
  c <- and_ (lift (py_lt (VFloat (-60e-9)) x))
            (lift (py_lt x (VFloat (-20e-9)))) ;;
  if (c : bool) then ret (VTuple [VInt 0; VInt 0; VInt (-1)])
  else ret (VTuple [VInt 0; VInt 0; VInt 1]).

(** ** Statements and expressions of the top level

    The cells are straight-line code.  Their expressions are built from the
    combinators below, which evaluate operands in Python's order.  The
    notebook reads attributes of, subscripts and calls external objects
    only: the result is the opaque value naming that access, and a call is
    recorded in the trace.  What a library does inside a call is not
    modelled; in particular [Ms_func] and [init_m] are never called by a
    cell, they are handed to [df.Field], which calls them.  The same
    access on a value that is not an external object is an exception. *)

Definition is_external (v : value) : bool :=
  match v with
  | VModule _ | VGet _ _ | VItem _ _ | VRes _ _ _ | VOp _ _ _ => true
  | _ => false
  end.

Definition raise {A} (e : exn) : nb A := fun s => (Raise e, s).

Definition emit (ev : event) : nb unit := fun s => (Ok tt, log ev s).

Fixpoint seq_ {A} (cs : list (nb A)) : nb (list A) :=
  match cs with
  | [] => ret []
  | c :: cs' => a <- c ;; r <- seq_ cs' ;; ret (a :: r)
  end.

Definition keyed {K A} (kc : K * nb A) : nb (K * A) :=
  a <- kc.2 ;; ret (kc.1, a).

Definition int (n : Z) : nb value := ret (VInt n).
Definition flt (f : float) : nb value := ret (VFloat f).
Definition str (s : string) : nb value := ret (VStr s).
Definition true_ : nb value := ret (VBool true).

Definition tuple_ (es : list (nb value)) : nb value :=
  vs <- seq_ es ;; ret (VTuple vs).

Definition list_ (es : list (nb value)) : nb value :=
  vs <- seq_ es ;; ret (VList vs).

Definition dict_ (es : list (nb value * nb value)) : nb value :=
  kvs <- seq_ (map (fun kv => k <- kv.1 ;; v <- kv.2 ;; ret (k, v)) es) ;;
  ret (VDict kvs).

(** [e.a] *)
Definition attr (e : nb value) (a : string) : nb value :=
  o <- e ;;
  if is_external o then ret (VGet o a) else raise AttributeError.

(** [e[k]] *)
Definition item (e k : nb value) : nb value :=
  o <- e ;; i <- k ;;
  if is_external o then ret (VItem o i) else raise TypeError.

(** [f(args, kwargs)] *)
Definition call (f : nb value) (args : list (nb value))
    (kwargs : list (string * nb value)) : nb value :=
  c <- f ;; vs <- seq_ args ;; kws <- seq_ (map keyed kwargs) ;;
  if is_external c then emit (EvCall c vs kws) ;; ret (VRes c vs kws)
  else raise TypeError.

(** [l op r] with an operand owned by a library *)
Definition binop (op : string) (l r : nb value) : nb value :=
  a <- l ;; b <- r ;;
  if is_external a || is_external b then ret (VOp op a b)
  else raise TypeError.

(** [-e] *)
Definition neg (e : nb value) : nb value := v <- e ;; lift (py_neg v).

(** [x = e] *)
Definition assign (x : string) (e : nb value) : nb unit :=
  v <- e ;;
  fun s => (Ok tt, mkState (<[x := v]> (globals s)) (trace s ++ [EvBind x v])).

(** [o.a = e]: the right-hand side is evaluated first. *)
Definition set_attr (o : nb value) (a : string) (e : nb value) : nb unit :=
  v <- e ;; t <- o ;;
  if is_external t then emit (EvSetAttr t a v) else raise AttributeError.

(** [import m as x] *)
Definition import_as (m x : string) : nb unit :=
  emit (EvImport m) ;; assign x (ret (VModule m)).

(** [def f(p): ...] binds [f] to a function object. *)
Definition def (f : string) : nb unit := assign f (ret (VFun f)).

(** An expression statement. *)
Definition expr (e : nb value) : nb unit := e ;; ret tt.

Definition magic (line : string) : nb unit := emit (EvMagic line).

Fixpoint run (cs : list (nb unit)) : nb unit :=
  match cs with
  | [] => ret tt
  | c :: cs' => c ;; run cs'
  end.

(** ** The code cells, in notebook order *)

Module Cells.

Definition hv_kw : list (string * nb value) :=
  [("kdims", list_ [str "x"; str "y"]);
   ("vector_kw", dict_ [(str "n", tuple_ [int 45; int 15])]);
   ("scalar_kw", dict_ [(str "clim", tuple_ [neg (name "Ms"); name "Ms"]);
                        (str "cmap", str "coolwarm")])].

Definition ltem_kw : list (string * nb value) :=
  [("voltage", flt 300e3); ("df_length", flt 0.2e-3)].

Definition holo_kw : list (string * nb value) :=
  [("cmap", str "RdBu"); ("interpolation", str "spline16");
   ("symmetric_clim", true_)].

Definition cell_1 : list (nb unit) :=
  [magic "%config InlineBackend.figure_formats = ['svg']";
   import_as "holoviews" "hv";
   expr (call (attr (name "hv") "extension") [str "bokeh"] []);
   expr (call (attr (name "hv") "output") []
           [("widget_location", str "bottom")])].

Definition cell_3 : list (nb unit) :=
  [import_as "discretisedfield" "df";
   import_as "micromagneticmodel" "mm";
   import_as "numpy" "np";
   import_as "oommfc" "mc"].

Definition cell_5 : list (nb unit) :=
  [assign "system"
     (call (attr (name "mm") "System") []
        [("name", str "dw_pair_conversion")])].

Definition cell_7 : list (nb unit) :=
  [assign "Ms" (flt 5.8e5);
   assign "A_ex" (flt 15e-12);
   assign "DMI_D" (flt 3e-3);
   assign "K" (flt 0.6e6);
   assign "u" (tuple_ [int 0; int 0; int 1]);
   assign "B_z" (flt 100e-3)].

Definition cell_8 : list (nb unit) :=
  [set_attr (name "system") "energy"
     (binop "+"
       (binop "+"
         (binop "+"
           (binop "+"
             (call (attr (name "mm") "Exchange") [] [("A", name "A_ex")])
             (call (attr (name "mm") "DMI") []
                [("D", name "DMI_D"); ("crystalclass", str "Cnv_z")]))
           (call (attr (name "mm") "UniaxialAnisotropy") []
              [("K", name "K"); ("u", name "u")]))
         (call (attr (name "mm") "Demag") [] []))
       (call (attr (name "mm") "Zeeman") []
          [("H", tuple_ [int 0; int 0;
                         binop "/" (name "B_z")
                           (attr (attr (name "mm") "consts") "mu0")])]))].

Definition cell_9 : list (nb unit) :=
  [expr (attr (name "system") "energy")].

Definition cell_11 : list (nb unit) :=
  [assign "region"
     (call (attr (name "df") "Region") []
        [("p1", tuple_ [flt (-100e-9); flt (-50e-9); flt (-10e-9)]);
         ("p2", tuple_ [flt 200e-9; flt 50e-9; int 0])]);
   assign "mesh"
     (call (attr (name "df") "Mesh") []
        [("region", name "region");
         ("cell", tuple_ [flt 2.5e-9; flt 2.5e-9; flt 5e-9])])].

Definition cell_12 : list (nb unit) :=
  [expr (call (attr (name "mesh") "mpl") [] [])].

Definition cell_13 : list (nb unit) :=
  [expr (call (attr (name "mesh") "k3d") [] [])].

Definition cell_14 : list (nb unit) :=
  [def "Ms_func";
   def "init_m";
   set_attr (name "system") "m"
     (call (attr (name "df") "Field") [name "mesh"]
        [("dim", int 3); ("value", name "init_m"); ("norm", name "Ms_func")])].

Definition plot_m_z : nb unit :=
  expr (call (attr (attr (call (attr (attr (name "system") "m") "plane")
                            [str "z"] []) "z") "mpl") [] []).

Definition plot_m_hv : nb unit :=
  expr (call (attr (attr (name "system") "m") "hv") [] hv_kw).

Definition cell_15 : list (nb unit) := [plot_m_z].

Definition cell_17 : list (nb unit) :=
  [assign "md" (call (attr (name "mc") "MinDriver") [] []);
   expr (call (attr (name "md") "drive") [name "system"] [])].

Definition cell_18 : list (nb unit) := [plot_m_z].

Definition cell_19 : list (nb unit) := [plot_m_hv].

Definition cell_21 : list (nb unit) :=
  [set_attr (name "system") "dynamics"
     (binop "+"
       (binop "+"
         (call (attr (name "mm") "Precession") []
            [("gamma0", attr (attr (name "mm") "consts") "gamma0")])
         (call (attr (name "mm") "Damping") [] [("alpha", flt 0.3)]))
       (call (attr (name "mm") "ZhangLi") []
          [("u", int 300); ("beta", flt 0.5)]));
   expr (attr (name "system") "dynamics")].

Definition cell_22 : list (nb unit) :=
  [assign "td" (call (attr (name "mc") "TimeDriver") [] []);
   expr (call (attr (name "td") "drive") [name "system"]
           [("t", flt 0.35e-9); ("n", int 200); ("verbose", int 2)])].

Definition cell_23 : list (nb unit) := [plot_m_hv].

Definition cell_25 : list (nb unit) :=
  [import_as "micromagneticdata" "mdata";
   assign "data"
     (call (attr (name "mdata") "Data") [attr (name "system") "name"] [])].

Definition cell_26 : list (nb unit) :=
  [expr (attr (name "data") "info")].

Definition cell_27 : list (nb unit) :=
  [expr (call (attr (item (name "data") (int (-1))) "hv") []
           [("kdims", list_ [str "x"; str "y"]);
            ("vdims", list_ [str "x"; str "y"]);
            ("vector_kw", dict_ [(str "n", tuple_ [int 45; int 15])]);
            ("scalar_kw",
             dict_ [(str "clim", tuple_ [neg (name "Ms"); name "Ms"]);
                    (str "cmap", str "coolwarm")])])].

Definition cell_29 : list (nb unit) :=
  [expr (call (attr (name "md") "drive") [name "system"] [])].

Definition cell_30 : list (nb unit) := [plot_m_hv].

Definition cell_31 : list (nb unit) := [import_as "mag2exp" "mag2exp"].

Definition cell_33 : list (nb unit) :=
  [assign "mfm_m_field"
     (call (attr (attr (name "system") "m") "pad")
        [dict_ [(str "z", tuple_ [int 0; int 25])]]
        [("mode", str "constant")])].

Definition cell_34 : list (nb unit) :=
  [expr (call (attr (attr (call (attr (name "mfm_m_field") "plane")
                             [str "y"] []) "z") "mpl") [] [])].

Definition cell_35 : list (nb unit) :=
  [assign "phase_shift"
     (call (attr (attr (name "mag2exp") "mfm") "phase_shift")
        [name "mfm_m_field"]
        [("quality", int 650); ("k", int 3);
         ("tip_m", tuple_ [int 0; int 0; flt 1e-16])])].

Definition cell_36 : list (nb unit) :=
  [set_attr (attr (name "phase_shift") "mesh") "subregions"
     (dict_ [(str "free",
              call (attr (name "df") "Region") []
                [("p1", tuple_ [flt (-100e-9); flt (-50e-9); flt 5e-9]);
                 ("p2", tuple_ [flt 200e-9; flt 50e-9; flt 100e-9])])])].

Definition cell_37 : list (nb unit) :=
  [expr (call (attr (item (name "phase_shift") (str "free")) "hv") []
           [("kdims", list_ [str "x"; str "y"]);
            ("scalar_kw", dict_ [(str "cmap", str "gray")])])].

Definition cell_39 : list (nb unit) :=
  [assign "holo_image"
     (call (attr (attr (name "mag2exp") "x_ray") "holography")
        [attr (name "system") "m"] [])].

Definition cell_40 : list (nb unit) :=
  [expr (call (attr (attr (name "holo_image") "mpl") "scalar") [] holo_kw)].

Definition cell_41 : list (nb unit) :=
  [assign "holo_image_2"
     (call (attr (attr (name "mag2exp") "x_ray") "holography")
        [attr (name "system") "m"]
        [("fwhm", tuple_ [flt 15e-9; flt 15e-9])])].

Definition cell_42 : list (nb unit) :=
  [expr (call (attr (attr (name "holo_image_2") "mpl") "scalar") [] holo_kw)].

Definition cell_44 : list (nb unit) :=
  [expr (call (attr (attr (name "mag2exp") "quick_plots") "ltem_defocus")
           [attr (name "system") "m"] ltem_kw)].

Definition cell_45 : list (nb unit) :=
  [expr (call (attr (attr (attr (attr (name "system") "m") "norm") "k3d")
                 "nonzero") [] [])].

Definition cell_46 : list (nb unit) :=
  [assign "field_rotator"
     (call (attr (name "df") "FieldRotator") [attr (name "system") "m"] []);
   expr (call (attr (name "field_rotator") "rotate") [str "from_euler"]
           [("seq", str "y"); ("angles", int 10); ("degrees", true_)]);
   expr (call (attr (attr (attr (attr (name "field_rotator") "field") "norm")
                       "k3d") "nonzero") [] [])].

Definition cell_47 : list (nb unit) :=
  [expr (call (attr (attr (name "mag2exp") "quick_plots") "ltem_defocus")
           [attr (name "field_rotator") "field"] ltem_kw)].

End Cells.
Import Cells.

(** The statements that run before the constants are bound, the cell that
    binds them, and the statements that run afterwards. *)
Definition before_constants : list (nb unit) := cell_1 ++ cell_3 ++ cell_5.

Definition after_constants : list (nb unit) :=
  cell_8 ++ cell_9 ++ cell_11 ++ cell_12 ++ cell_13 ++ cell_14 ++ cell_15
  ++ cell_17 ++ cell_18 ++ cell_19 ++ cell_21 ++ cell_22 ++ cell_23
  ++ cell_25 ++ cell_26 ++ cell_27 ++ cell_29 ++ cell_30 ++ cell_31
  ++ cell_33 ++ cell_34 ++ cell_35 ++ cell_36 ++ cell_37 ++ cell_39
  ++ cell_40 ++ cell_41 ++ cell_42 ++ cell_44 ++ cell_45 ++ cell_46
  ++ cell_47.

Definition notebook : list (nb unit) :=
  before_constants ++ cell_7 ++ after_constants.

(** The states reached after each statement, up to and including the
    first one that raises. *)
Fixpoint trajectory (cs : list (nb unit)) (s : state) : list state :=
  match cs with
  | [] => []
  | c :: cs' =>
      match c s with
      | (Ok _, s') => s' :: trajectory cs' s'
      | (Raise _, s') => [s']
      end
  end.

(** The state once the constants are bound, and at the end of the run. *)
(** Where [Ms_func] is bound, so is [Ms]. *)
Definition Ms_ready (s : state) : bool :=
  match globals s !! "Ms_func", globals s !! "Ms" with
  | Some _, None => false
  | _, _ => true
  end.

(** ** Positions, directions, constants *)

(** A position whose first two coordinates are numbers. *)
Definition pos (x y : num) (z : value) : value :=
  VTuple [of_num x; of_num y; z].

Definition forward : value := VTuple [VInt 0; VInt 0; VInt 1].
Definition reversed : value := VTuple [VInt 0; VInt 0; VInt (-1)].

(** The footprint of the film, [x > 0 or |y| < 20e-9], and its outside,
    [x <= 0 and |y| >= 20e-9]. *)
Definition inside (x y : num) : bool :=
  num_ltb (NInt 0) x || num_ltb (num_abs y) (NFloat 20e-9).

Definition outside (x y : num) : bool :=
  num_leb x (NInt 0) && num_leb (NFloat 20e-9) (num_abs y).

(** The reversed strip, [-60e-9 < x < -20e-9]. *)
Definition in_strip (x : num) : bool :=
  num_ltb (NFloat (-60e-9)) x && num_ltb x (NFloat (-20e-9)).

(** Euclidean magnitude of an integer vector. *)
Definition magnitude (a b c : Z) : R :=
  R_sqrt.sqrt (IZR (a * a + b * b + c * c)).

(** The constants of cell 7. *)
Definition constants : list (string * value) :=
  [("Ms", VFloat 5.8e5); ("A_ex", VFloat 15e-12); ("DMI_D", VFloat 3e-3);
   ("K", VFloat 0.6e6); ("u", VTuple [VInt 0; VInt 0; VInt 1]);
   ("B_z", VFloat 100e-3)].

Definition constants_bound (s : state) : Prop :=
  Forall (fun xv => globals s !! xv.1 = Some xv.2) constants.

(** A computation leaves the binding of [x] as it found it, whether it
    returns or raises. *)
Definition preserves {A} (x : string) (c : nb A) : Prop :=
  forall s, globals (c s).2 !! x = globals s !! x.

(** A computation leaves the whole state as it found it, whether it
    returns or raises. *)
Definition reads_only {A} (c : nb A) : Prop :=
  forall s, (c s).2 = s.

(** What [c] returns or raises is the same in any two states that agree
    on [x]. *)
Definition depends_on_only {A} (x : string) (c : nb A) : Prop :=
  forall s1 s2, globals s1 !! x = globals s2 !! x -> (c s1).1 = (c s2).1.

Definition binds (x : string) (ev : event) : bool :=
  match ev with
  | EvBind y _ => String.eqb x y
  | _ => false
  end.

Definition bind_count (x : string) (t : list event) : nat :=
  length (List.filter (binds x) t).

(** Calls of a class or function of the energy-and-dynamics package. *)
Definition calls_mm (cls : string) (ev : event) : bool :=
  match ev with
  | EvCall (VGet (VModule m) c) _ _ =>
      String.eqb m "micromagneticmodel" && String.eqb c cls
  | _ => false
  end.

Definition sets_attr (a : string) (ev : event) : bool :=
  match ev with
  | EvSetAttr _ b _ => String.eqb a b
  | _ => false
  end.

(** Attribute assignments of the run write to external objects. *)
Definition writes_external_only (ev : event) : bool :=
  match ev with
  | EvSetAttr o _ _ => is_external o
  | _ => true
  end.

(** The system object of cell 5 and the dynamics term of cell 21. *)
Definition system_obj : value :=
  VRes (VGet (VModule "micromagneticmodel") "System") []
    [("name", VStr "dw_pair_conversion")].

Definition dynamics_value : value :=
  VOp "+"
    (VOp "+"
       (VRes (VGet (VModule "micromagneticmodel") "Precession") []
          [("gamma0",
            VGet (VGet (VModule "micromagneticmodel") "consts") "gamma0")])
       (VRes (VGet (VModule "micromagneticmodel") "Damping") []
          [("alpha", VFloat 0.3)]))
    (VRes (VGet (VModule "micromagneticmodel") "ZhangLi") []
       [("u", VInt 300); ("beta", VFloat 0.5)]).

(** The attribute writes of a trace, in order: object, attribute, value. *)
Definition attr_writes (t : list event) : list (value * string * value) :=
  omap (fun ev =>
          match ev with
          | EvSetAttr o a v => Some (o, a, v)
          | _ => None
          end) t.

(** ** Stages of the run *)

Inductive stage : Type :=
| Minimise
| TimeStep
| ReadData
| Imaging.

(** The module an external callable is reached from. *)
Fixpoint root_module (v : value) : option string :=
  match v with
  | VModule m => Some m
  | VGet o _ => root_module o
  | _ => None
  end.

(** [d.drive(...)] on a driver built by [mc.MinDriver()] or
    [mc.TimeDriver()] is a driver invocation; a call of a callable of
    micromagneticdata reads the trajectory back, a call of a callable of
    mag2exp is an imaging routine; both are post-processing. *)
Definition stage_of (ev : event) : option stage :=
  match ev with
  | EvCall (VGet (VRes (VGet (VModule m) cls) _ _) meth) _ _ =>
      if String.eqb m "oommfc" && String.eqb meth "drive" then
        if String.eqb cls "MinDriver" then Some Minimise
        else if String.eqb cls "TimeDriver" then Some TimeStep
        else None
      else None
  | EvCall f _ _ =>
      match root_module f with
      | Some m =>
          if String.eqb m "micromagneticdata" then Some ReadData
          else if String.eqb m "mag2exp" then Some Imaging
          else None
      | None => None
      end
  | _ => None
  end.

Definition stages (t : list event) : list stage := omap stage_of t.

(** The order of the overview: the minimiser once, the time-stepper once,
    then post-processing only. *)
Definition post_processing (st : stage) : Prop :=
  st = ReadData \/ st = Imaging.

Definition linear_order (l : list stage) : Prop :=
  exists post, l = Minimise :: TimeStep :: post /\ Forall post_processing post.

(** The dotted path of an external callable: module, attributes, and for a
    method the path of the class that built its object. *)
Fixpoint callee_path (v : value) : list string :=
  match v with
  | VModule m => [m]
  | VGet o a => callee_path o ++ [a]
  | VRes f _ _ => callee_path f
  | _ => []
  end.

(** The staged calls of a trace, each with the path of its callee. *)
Definition staged (t : list event) : list (stage * list string) :=
  omap (fun ev =>
          match ev with
          | EvCall f _ _ =>
              match stage_of ev with
              | Some st => Some (st, callee_path f)
              | None => None
              end
          | _ => None
          end) t.

(** ** Region and mesh of cell 11 *)

(** A decimal literal of the source, [mant * 10 ^ exp10]. *)
Record dec : Type := Dec { mant : Z; exp10 : Z }.

(** Its exact value. *)
Definition dec_Q (d : dec) : Q :=
  if 0 <=? exp10 d then inject_Z (mant d * 10 ^ exp10 d)
  else Qmake (mant d) (Z.to_pos (10 ^ (- exp10 d))).

(** Conversion of an integer below [2 ^ 63] in magnitude to binary64. *)
Definition Z2float (n : Z) : float :=
  match n with
  | Z0 => 0%float
  | Zpos _ => of_uint63 (Uint63.of_Z n)
  | Zneg q => PrimFloat.opp (of_uint63 (Uint63.of_Z (Zpos q)))
  end.

(** The binary64 value nearest to a decimal literal whose mantissa and
    power of ten are exact in binary64: one correctly rounded division. *)
Definition dec_float (d : dec) : float :=
  if 0 <=? exp10 d then Z2float (mant d * 10 ^ exp10 d)
  else PrimFloat.div (Z2float (mant d)) (Z2float (10 ^ (- exp10 d))).

(** The exact value of a finite binary64 number. *)
Definition float_Q (f : float) : option Q :=
  match Prim2SF f with
  | S754_zero _ => Some (inject_Z 0)
  | S754_finite s m e =>
      let v := if s then Z.neg m else Z.pos m in
      Some (if 0 <=? e then inject_Z (v * 2 ^ e)
            else Qmake v (Z.to_pos (2 ^ (- e))))
  | _ => None
  end.

Definition num_float (a : num) : float :=
  match a with
  | NInt n => Z2float n
  | NFloat f => f
  end.

(** The corner points and the cell, as the run passes them to [df.Region]
    and [df.Mesh], and as the source writes them. *)
Definition region_p1 : list num :=
  [NFloat (-100e-9); NFloat (-50e-9); NFloat (-10e-9)].
Definition region_p2 : list num :=
  [NFloat 200e-9; NFloat 50e-9; NInt 0].
Definition mesh_cell : list num :=
  [NFloat 2.5e-9; NFloat 2.5e-9; NFloat 5e-9].

Definition region_p1_src : list dec :=
  [Dec (-100) (-9); Dec (-50) (-9); Dec (-10) (-9)].
Definition region_p2_src : list dec :=
  [Dec 200 (-9); Dec 50 (-9); Dec 0 0].
Definition mesh_cell_src : list dec :=
  [Dec 25 (-10); Dec 25 (-10); Dec 5 (-9)].

(** Edge lengths of the region, in binary64 and in exact decimal
    arithmetic. *)
Definition edges (p1 p2 : list num) : list float :=
  zip_with
    (fun a b => PrimFloat.abs (PrimFloat.sub (num_float b) (num_float a)))
    p1 p2.

Definition edges_Q (p1 p2 : list dec) : list Q :=
  zip_with (fun a b => Qabs (dec_Q b - dec_Q a)) p1 p2.

(** [e] is [n] times [c], exactly. *)
Definition exact_multiple (e c : float) (n : Z) : Prop :=
  match float_Q e, float_Q c with
  | Some a, Some b => (a == inject_Z n * b)%Q
  | _, _ => False
  end.

(** The edge lengths are exact integer multiples of the cell edges, as
    numbers. *)
Definition tiles_exactly (p1 p2 cell : list num) (n : list Z) : Prop :=
  Forall2 (fun ec k => exact_multiple ec.1 ec.2 k)
    (zip (edges p1 p2) (map num_float cell)) n.

(** The region object the run builds from the corner points. *)
Definition region_obj : value :=
  VRes (VGet (VModule "discretisedfield") "Region") []
    [("p1", VTuple (map of_num region_p1));
     ("p2", VTuple (map of_num region_p2))].

(** [n] cells tile the region along each axis: [n] times the cell edge is
    the edge length, in rounded binary64 arithmetic ([tiles]) and in exact
    decimal arithmetic on the literals ([tiles_Q]). *)
Definition tiles (p1 p2 cell : list num) (n : list Z) : Prop :=
  zip_with (fun k c => PrimFloat.mul (Z2float k) c) n (map num_float cell)
  = edges p1 p2.

Definition tiles_Q (p1 p2 cell : list dec) (n : list Z) : Prop :=
  Forall2 (fun ec k => (ec.1 == inject_Z k * ec.2)%Q)
    (zip (edges_Q p1 p2) (map dec_Q cell)) n.

(** The binary64 quotients of the edge lengths by the cell edges. *)
Definition quotients (p1 p2 cell : list num) : list float :=
  zip_with PrimFloat.div (edges p1 p2) (map num_float cell).

(** [n] is the integer nearest to [q]. *)
Definition nearest (q : float) (n : Z) : Prop :=
  match float_Q q with
  | Some a => (Qabs (a - inject_Z n) < 1 # 2)%Q
  | None => False
  end.

Definition final_state : state := (run notebook init_state).2.

Definition state_after_constants : state :=
  (run (before_constants ++ cell_7) init_state).2.

(** ** Bindings and positions in the trace *)

Definition bound (ev : event) : option (string * value) :=
  match ev with
  | EvBind x v => Some (x, v)
  | _ => None
  end.

(** The bindings of a run, in order. *)
Definition bindings (t : list event) : list (string * value) := omap bound t.

Definition is_driver_call (ev : event) : bool :=
  match stage_of ev with
  | Some Minimise | Some TimeStep => true
  | _ => false
  end.

(** The positions in a trace of the events that satisfy [P]. *)
Definition positions (P : event -> bool) (t : list event) : list nat :=
  omap (fun iev => if P iev.2 then Some iev.1 else None) (imap pair t).


(** A value of the notebook's own: None, a bool, an int, a float, a str, a
    tuple, a list, a dict or a function of the notebook, not an object
    owned by a library. *)
Definition own (v : value) : bool := negb (is_external v).

(** An argument of the two functions that is the notebook's own down to
    the items it unpacks into. *)
Definition own_argument (p : value) : bool :=
  own p &&
  match iter_items p with
  | Ok vs => forallb own vs
  | Raise _ => true
  end.

(** * Properties *)

(** ** Order on numbers *)

Lemma SFcompare_antisym (a b : spec_float) (c : comparison) :
  SFcompare a b = Some c -> SFcompare b a = Some (CompOpp c).
Proof.
  destruct a as [sa|sa| |sa ma ea], b as [sb|sb| |sb mb eb];
    try destruct sa; try destruct sb; simpl;
    intros H; inversion H; subst; clear H; try reflexivity;
    rewrite (Z.compare_antisym ea eb);
    destruct (ea ?= eb); simpl; try reflexivity;
    rewrite (Pos.compare_cont_antisym ma mb Eq); reflexivity.
Qed.

Lemma float_leb_not_ltb (c f : float) :
  PrimFloat.leb c f = true -> PrimFloat.ltb f c = false.
Proof.
  rewrite leb_spec, ltb_spec. unfold SFleb, SFltb.
  destruct (SFcompare (Prim2SF c) (Prim2SF f)) as [o|] eqn:E; [|discriminate].
  rewrite (SFcompare_antisym _ _ _ E).
  destruct o; simpl; congruence.
Qed.

Lemma num_leb_not_ltb (a b : num) :
  num_leb a b = true -> num_ltb b a = false.
Proof.
  destruct a as [x|x], b as [y|y]; simpl.
  - intros H. apply Z.ltb_ge. apply Z.leb_le. exact H.
  - destruct (float_cmp_Z y x) as [[]|]; congruence.
  - destruct (float_cmp_Z x y) as [[]|]; congruence.
  - apply float_leb_not_ltb.
Qed.

Lemma outside_not_inside (x y : num) :
  outside x y = true -> inside x y = false.
Proof.
  unfold outside, inside. intros H.
  apply andb_true_iff in H as [Hx Hy].
  rewrite (num_leb_not_ltb _ _ Hx), (num_leb_not_ltb _ _ Hy). reflexivity.
Qed.

Lemma to_num_of_num (a : num) : to_num (of_num a) = Some a.
Proof. destruct a; reflexivity. Qed.

(** ** The two functions on positions *)

Lemma Ms_func_pos (x y : num) (z : value) (s : state) :
  Ms_func (pos x y z) s =
  if inside x y then name "Ms" s else (Ok (VInt 0), s).
Proof.
  cbv [Ms_func pos inside bind lift or_ ret py_gt py_lt py_abs unpack3 rbind
       iter_items].
  rewrite !to_num_of_num. cbv [to_num].
  destruct (num_ltb (NInt 0) x); [reflexivity|].
  destruct (num_ltb (num_abs y) (NFloat 20e-9)); reflexivity.
Qed.

Lemma init_m_pos (x : num) (y z : value) (s : state) :
  init_m (VTuple [of_num x; y; z]) s =
  (Ok (if in_strip x then reversed else forward), s).
Proof.
  cbv [init_m in_strip bind lift and_ ret py_lt unpack3 rbind iter_items].
  rewrite !to_num_of_num. cbv [to_num].
  destruct (num_ltb (NFloat (-60e-9)) x); [|reflexivity].
  destruct (num_ltb x (NFloat (-20e-9))); reflexivity.
Qed.

(** Outside the numbers the functions raise, and [Ms_func] looks at [y]
    only when [x > 0] fails. *)
Example init_m_not_a_number (s : state) :
  init_m (VTuple [VNone; VFloat 0; VFloat 0]) s = (Raise TypeError, s).
Proof. reflexivity. Qed.

Example init_m_pair (s : state) :
  init_m (VTuple [VFloat 0; VFloat 0]) s = (Raise ValueError, s).
Proof. reflexivity. Qed.

Example Ms_func_short_circuit :
  Ms_func (VTuple [VInt 1; VNone; VNone]) final_state
  = (Ok (VFloat 5.8e5), final_state)
  /\ Ms_func (VTuple [VInt 0; VNone; VNone]) final_state
     = (Raise TypeError, final_state).
Proof. split; vm_compute; reflexivity. Qed.

Example Ms_func_before_cell_7 :
  Ms_func (VTuple [VInt 1; VInt 0; VInt 0]) init_state
  = (Raise (NameError "Ms"), init_state).
Proof. reflexivity. Qed.

Example Ms_func_nan :
  Ms_func (pos (NFloat nan) (NFloat nan) VNone) init_state
  = (Ok (VInt 0), init_state).
Proof. reflexivity. Qed.

(** C1: with [Ms] bound to 5.8e5, [Ms_func] returns [Ms], which is not
    zero, at every position inside the footprint ([x > 0] or
    [|y| < 20e-9]) and the integer 0 at every position outside it
    ([x <= 0] and [|y| >= 20e-9]). *)
Theorem Ms_func_footprint (x y : num) (z : value) (s : state) :
  globals s !! "Ms" = Some (VFloat 5.8e5) ->
  (inside x y = true -> Ms_func (pos x y z) s = (Ok (VFloat 5.8e5), s))
  /\ (outside x y = true -> Ms_func (pos x y z) s = (Ok (VInt 0), s))
  /\ py_gt (VFloat 5.8e5) (VInt 0) = Ok true.
Proof.
  intros HMs. rewrite Ms_func_pos. repeat split.
  - intros ->. unfold name. rewrite HMs. reflexivity.
  - intros H. rewrite (outside_not_inside _ _ H). reflexivity.
Qed.

Lemma Ms_func_footprint_witness :
  Ms_func (pos (NFloat 10e-9) (NFloat 40e-9) (VFloat (-5e-9))) final_state
    = (Ok (VFloat 5.8e5), final_state)
  /\ Ms_func (pos (NFloat (-80e-9)) (NFloat (-10e-9)) (VFloat (-5e-9)))
       final_state
    = (Ok (VFloat 5.8e5), final_state)
  /\ Ms_func (pos (NFloat (-80e-9)) (NFloat 40e-9) (VFloat (-5e-9)))
       final_state
    = (Ok (VInt 0), final_state).
Proof.
  assert (HMs : globals final_state !! "Ms" = Some (VFloat 5.8e5))
    by (vm_compute; reflexivity).
  split; [|split].
  - apply (Ms_func_footprint (NFloat 10e-9) (NFloat 40e-9) _ _ HMs).
    reflexivity.
  - apply (Ms_func_footprint (NFloat (-80e-9)) (NFloat (-10e-9)) _ _ HMs).
    reflexivity.
  - apply (Ms_func_footprint (NFloat (-80e-9)) (NFloat 40e-9) _ _ HMs).
    reflexivity.
Defined.

(** C2: [init_m] returns the reversed easy-axis direction (0, 0, -1) at
    every position with [-60e-9 < x < -20e-9], and the forward direction
    (0, 0, 1) at every other position. *)
Theorem init_m_strip (x : num) (y z : value) (s : state) :
  (in_strip x = true ->
     init_m (VTuple [of_num x; y; z]) s
     = (Ok (VTuple [VInt 0; VInt 0; VInt (-1)]), s))
  /\ (in_strip x = false ->
     init_m (VTuple [of_num x; y; z]) s
     = (Ok (VTuple [VInt 0; VInt 0; VInt 1]), s)).
Proof.
  rewrite init_m_pos. split; intros ->; reflexivity.
Qed.

Lemma init_m_strip_witness :
  init_m (VTuple [VFloat (-40e-9); VFloat 0; VFloat (-5e-9)]) init_state
    = (Ok (VTuple [VInt 0; VInt 0; VInt (-1)]), init_state)
  /\ init_m (VTuple [VFloat 100e-9; VFloat 0; VFloat (-5e-9)]) init_state
    = (Ok (VTuple [VInt 0; VInt 0; VInt 1]), init_state).
Proof.
  split.
  - apply (init_m_strip (NFloat (-40e-9)) (VFloat 0) (VFloat (-5e-9))
             init_state).
    reflexivity.
  - apply (init_m_strip (NFloat 100e-9) (VFloat 0) (VFloat (-5e-9)) init_state).
    reflexivity.
Defined.

(** C4: at every position, the vector [init_m] returns has Euclidean
    magnitude 1. *)
Theorem init_m_unit_vector (x : num) (y z : value) (s : state) :
  exists a b c : Z,
    init_m (VTuple [of_num x; y; z]) s
    = (Ok (VTuple [VInt a; VInt b; VInt c]), s)
    /\ magnitude a b c = 1%R.
Proof.
  rewrite init_m_pos.
  destruct (in_strip x).
  - exists 0, 0, (-1). split; [reflexivity|].
    unfold magnitude. simpl. apply sqrt_1.
  - exists 0, 0, 1. split; [reflexivity|].
    unfold magnitude. simpl. apply sqrt_1.
Qed.

(** C9: the comparisons are strict.  At [x] exactly -60e-9 or exactly
    -20e-9, [init_m] returns the forward direction; at [x <= 0] with [|y|]
    exactly 20e-9, [Ms_func] returns 0. *)
Theorem strict_boundaries (x y : num) (v w : value) (s : state) :
  num_leb x (NInt 0) = true ->
  num_abs y = NFloat 20e-9 ->
  init_m (VTuple [VFloat (-60e-9); v; w]) s
  = (Ok (VTuple [VInt 0; VInt 0; VInt 1]), s)
  /\ init_m (VTuple [VFloat (-20e-9); v; w]) s
     = (Ok (VTuple [VInt 0; VInt 0; VInt 1]), s)
  /\ Ms_func (pos x y w) s = (Ok (VInt 0), s).
Proof.
  intros Hx Hy. split; [|split].
  - apply (init_m_pos (NFloat (-60e-9))).
  - apply (init_m_pos (NFloat (-20e-9))).
  - rewrite Ms_func_pos.
    rewrite outside_not_inside; [reflexivity|].
    unfold outside. rewrite Hx, Hy. reflexivity.
Qed.

Lemma strict_boundaries_witness :
  init_m (VTuple [VFloat (-60e-9); VFloat 0; VFloat 0]) init_state
    = (Ok (VTuple [VInt 0; VInt 0; VInt 1]), init_state)
  /\ init_m (VTuple [VFloat (-20e-9); VFloat 0; VFloat 0]) init_state
    = (Ok (VTuple [VInt 0; VInt 0; VInt 1]), init_state)
  /\ Ms_func (pos (NFloat (-30e-9)) (NFloat (-20e-9)) (VFloat 0)) init_state
    = (Ok (VInt 0), init_state).
Proof.
  apply (strict_boundaries (NFloat (-30e-9)) (NFloat (-20e-9))); reflexivity.
Defined.

(** C10: [init_m] does not depend on the second and third components of
    its argument, and [Ms_func] does not depend on the third. *)
Theorem independent_of_unused (x y y' z z' : value) (s : state) :
  init_m (VTuple [x; y; z]) s = init_m (VTuple [x; y'; z']) s
  /\ Ms_func (VTuple [x; y; z]) s = Ms_func (VTuple [x; y; z']) s.
Proof. split; reflexivity. Qed.

(** ** Reading without writing *)

Section ReadOnly.
Context {A B : Type}.

Lemma reads_only_ret (a : A) : reads_only (ret a).
Proof. intros s. reflexivity. Qed.

Lemma reads_only_lift (r : result A) : reads_only (lift r).
Proof. intros s. reflexivity. Qed.

Lemma reads_only_raise (e : exn) : reads_only (raise (A := A) e).
Proof. intros s. reflexivity. Qed.

Lemma reads_only_name (x : string) : reads_only (name x).
Proof. intros s. unfold name. destruct (globals s !! x); reflexivity. Qed.

Lemma reads_only_bind (c : nb A) (k : A -> nb B) :
  reads_only c -> (forall a, reads_only (k a)) -> reads_only (bind c k).
Proof.
  intros Hc Hk s. unfold bind. specialize (Hc s).
  destruct (c s) as [[a|e] s0]; simpl in Hc; subst s0.
  - apply Hk.
  - reflexivity.
Qed.

Lemma depends_ret (x : string) (a : A) : depends_on_only x (ret a).
Proof. intros s1 s2 _. reflexivity. Qed.

Lemma depends_lift (x : string) (r : result A) : depends_on_only x (lift r).
Proof. intros s1 s2 _. reflexivity. Qed.

Lemma depends_name (x : string) : depends_on_only x (name x).
Proof.
  intros s1 s2 H. unfold name. rewrite H.
  destruct (globals s2 !! x); reflexivity.
Qed.

Lemma depends_bind (x : string) (c : nb A) (k : A -> nb B) :
  reads_only c -> depends_on_only x c ->
  (forall a, depends_on_only x (k a)) ->
  depends_on_only x (bind c k).
Proof.
  intros Hr Hc Hk s1 s2 H. unfold bind.
  specialize (Hc s1 s2 H). pose proof (Hr s1) as H1. pose proof (Hr s2) as H2.
  destruct (c s1) as [[a1|e1] t1], (c s2) as [[a2|e2] t2];
    simpl in Hc, H1, H2; subst t1 t2; try discriminate.
  - injection Hc as ->. apply Hk, H.
  - injection Hc as ->. reflexivity.
Qed.

End ReadOnly.

Create HintDb nb_pure.
#[local] Hint Resolve reads_only_ret reads_only_lift reads_only_name
  depends_ret depends_lift depends_name : nb_pure.

Ltac nb_pure :=
  repeat first
    [ apply reads_only_bind | apply depends_bind
    | match goal with
      | |- forall _ : _ * _ * _, _ => intros [[? ?] ?]
      | |- forall _ : bool, _ => intros []
      | |- forall _, _ => intro
      end
    | solve [auto with nb_pure] ].

Lemma Ms_func_reads_only (p : value) : reads_only (Ms_func p).
Proof. unfold Ms_func, or_. nb_pure. Qed.

Lemma init_m_reads_only (p : value) : reads_only (init_m p).
Proof. unfold init_m, and_. nb_pure. Qed.

Lemma Ms_func_depends (p : value) : depends_on_only "Ms" (Ms_func p).
Proof. unfold Ms_func, or_. nb_pure. Qed.

Lemma init_m_depends (x : string) (p : value) : depends_on_only x (init_m p).
Proof. unfold init_m, and_. nb_pure. Qed.

(** C6: [Ms_func] and [init_m] are pure and deterministic.  In two states
    with the same binding of [Ms], each returns the same value or raises the
    same exception, and an evaluation, whether it returns or raises, leaves
    the state (globals and trace) as it was. *)
Theorem predicates_pure (p : value) (s1 s2 : state) :
  globals s1 !! "Ms" = globals s2 !! "Ms" ->
  (Ms_func p s1).1 = (Ms_func p s2).1
  /\ (init_m p s1).1 = (init_m p s2).1
  /\ (Ms_func p s1).2 = s1
  /\ (init_m p s1).2 = s1.
Proof.
  intros H. repeat split.
  - apply Ms_func_depends, H.
  - apply (init_m_depends "Ms"), H.
  - apply Ms_func_reads_only.
  - apply init_m_reads_only.
Qed.

Lemma predicates_pure_witness :
  let p := pos (NFloat 10e-9) (NFloat 0) (VFloat (-5e-9)) in
  let s1 := mkState (<["Ms" := VFloat 5.8e5]> ∅) [] in
  let s2 := mkState (<["Ms" := VFloat 5.8e5]> ∅) [EvMagic "later"] in
  (Ms_func p s1).1 = (Ms_func p s2).1
  /\ (init_m p s1).1 = (init_m p s2).1
  /\ (Ms_func p s1).2 = s1
  /\ (init_m p s1).2 = s1.
Proof.
  intros p s1 s2. apply (predicates_pure p s1 s2). reflexivity.
Defined.

(** ** The run *)

Lemma run_notebook : run notebook init_state = (Ok tt, final_state).
Proof. vm_compute. reflexivity. Qed.

Lemma trajectory_Ms_ready :
  forallb Ms_ready (trajectory notebook init_state) = true.
Proof. vm_compute. reflexivity. Qed.

(** C5: in every state of the run in which [Ms_func] is defined, [Ms_func]
    and [init_m] return a value at every triple of numbers, and the run of
    the notebook's own statements raises nothing. *)
Theorem predicates_total (x y : num) (z : value) (s : state) :
  s ∈ trajectory notebook init_state ->
  is_Some (globals s !! "Ms_func") ->
  (exists r, Ms_func (pos x y z) s = (Ok r, s))
  /\ (exists d, init_m (pos x y z) s = (Ok d, s))
  /\ (exists sF, run notebook init_state = (Ok tt, sF)).
Proof.
  intros Hs [f Hf]. split; [|split].
  - rewrite Ms_func_pos. destruct (inside x y); [|eauto].
    pose proof trajectory_Ms_ready as H.
    rewrite forallb_forall in H.
    specialize (H s). rewrite <- list_elem_of_In in H. specialize (H Hs).
    unfold Ms_ready in H. rewrite Hf in H. unfold name.
    destruct (globals s !! "Ms") as [v|]; [eauto|discriminate].
  - unfold pos. rewrite init_m_pos. eauto.
  - exists final_state. apply run_notebook.
Qed.

Lemma predicates_total_witness :
  (exists r, Ms_func (pos (NFloat 10e-9) (NInt 0) (VFloat (-5e-9))) final_state
             = (Ok r, final_state))
  /\ (exists d,
        init_m (pos (NFloat 10e-9) (NInt 0) (VFloat (-5e-9))) final_state
        = (Ok d, final_state))
  /\ (exists sF, run notebook init_state = (Ok tt, sF)).
Proof.
  apply (predicates_total (NFloat 10e-9) (NInt 0) (VFloat (-5e-9)) final_state).
  - apply list_elem_of_lookup. exists 55%nat. vm_compute. reflexivity.
  - exists (VFun "Ms_func"). vm_compute. reflexivity.
Defined.

(** C3, as stated, fails: the stages of the run are not the minimiser
    once, the time-stepper once and then post-processing only. *)
Lemma driver_order_not_linear :
  exists s, run notebook init_state = (Ok tt, s)
            /\ ~ linear_order (stages (trace s)).
Proof.
  exists final_state. split; [apply run_notebook|].
  intros [post [Hl Hpost]]. vm_compute in Hl. injection Hl as <-.
  inversion Hpost as [|? ? _ Hrest]; subst.
  inversion Hrest as [|? ? [H|H] _]; discriminate.
Qed.

(** C3, amended: the run invokes, in this order, the minimiser
    ([md.drive]), the time-stepper once ([td.drive]), the trajectory reader
    ([mdata.Data]), the minimiser a second time (the same call, on the same
    driver and system), and then the five imaging routines of mag2exp; no
    driver is invoked after the first imaging routine. *)
Theorem driver_order :
  exists s, run notebook init_state = (Ok tt, s)
            /\ staged (trace s) =
               [(Minimise, ["oommfc"; "MinDriver"; "drive"]);
                (TimeStep, ["oommfc"; "TimeDriver"; "drive"]);
                (ReadData, ["micromagneticdata"; "Data"]);
                (Minimise, ["oommfc"; "MinDriver"; "drive"]);
                (Imaging, ["mag2exp"; "mfm"; "phase_shift"]);
                (Imaging, ["mag2exp"; "x_ray"; "holography"]);
                (Imaging, ["mag2exp"; "x_ray"; "holography"]);
                (Imaging, ["mag2exp"; "quick_plots"; "ltem_defocus"]);
                (Imaging, ["mag2exp"; "quick_plots"; "ltem_defocus"])]
            /\ stages (trace s) = map fst (staged (trace s))
            /\ positions is_driver_call (trace s) = [41; 51; 58]%nat
            /\ trace s !! 58%nat = trace s !! 41%nat.
Proof.
  exists final_state. split; [apply run_notebook|].
  repeat split; vm_compute; reflexivity.
Qed.

(** ** Region and mesh *)

(** The binary64 values in the cells are those of the decimal literals. *)
Lemma literals_rounded :
  map num_float region_p1 = map dec_float region_p1_src
  /\ map num_float region_p2 = map dec_float region_p2_src
  /\ map num_float mesh_cell = map dec_float mesh_cell_src.
Proof. vm_compute. repeat split. Qed.

(** The run passes these corner points to [df.Region], and the region it
    gets back and this cell to [df.Mesh]. *)
Lemma mesh_arguments :
  trace final_state !! 27%nat
  = Some (EvCall (VGet (VModule "discretisedfield") "Region") []
            [("p1", VTuple (map of_num region_p1));
             ("p2", VTuple (map of_num region_p2))])
  /\ trace final_state !! 29%nat
     = Some (EvCall (VGet (VModule "discretisedfield") "Mesh") []
               [("region", region_obj);
                ("cell", VTuple (map of_num mesh_cell))]).
Proof. split; vm_compute; reflexivity. Qed.

(** The binary64 numbers are not the decimal ones: taken as exact
    rationals, the x edge is no integer multiple of the cell edge, and the
    rounded quotient falls one unit in the last place short of 120. *)
Lemma x_edge_binary64_value :
  ~ (exists n : Z, exact_multiple 300e-9 2.5e-9 n)
  /\ quotients region_p1 region_p2 mesh_cell
     = [119.99999999999999; 40; 2]%float
  /\ PrimFloat.ltb 119.99999999999999 120 = true.
Proof.
  split; [|split; reflexivity].
  intros [n H]. unfold exact_multiple in H.
  destruct (float_Q 300e-9) as [a|] eqn:Ea; [|vm_compute in Ea; discriminate].
  destruct (float_Q 2.5e-9) as [b|] eqn:Eb; [|vm_compute in Eb; discriminate].
  vm_compute in Ea, Eb.
  injection Ea as <-. injection Eb as <-.
  unfold Qeq in H. simpl in H. lia.
Qed.

Lemma y_edge_binary64_value :
  ~ (exists n : Z, exact_multiple 100e-9 2.5e-9 n).
Proof.
  intros [n H]. unfold exact_multiple in H.
  destruct (float_Q 100e-9) as [a|] eqn:Ea; [|vm_compute in Ea; discriminate].
  destruct (float_Q 2.5e-9) as [b|] eqn:Eb; [|vm_compute in Eb; discriminate].
  vm_compute in Ea, Eb.
  injection Ea as <-. injection Eb as <-.
  unfold Qeq in H. simpl in H. lia.
Qed.

(** C7, as stated, fails on the values of the run: the edge lengths the
    corner points give are the binary64 numbers 300e-9, 100e-9 and 10e-9,
    and neither the x edge nor the y edge is an integer multiple of the
    cell edge 2.5e-9; the x quotient is not 120. *)
Lemma mesh_not_exact :
  edges region_p1 region_p2 = [300e-9; 100e-9; 10e-9]%float
  /\ map num_float mesh_cell = [2.5e-9; 2.5e-9; 5e-9]%float
  /\ ~ (exists n, tiles_exactly region_p1 region_p2 mesh_cell n)
  /\ ~ (exists n : Z, exact_multiple 300e-9 2.5e-9 n)
  /\ ~ (exists n : Z, exact_multiple 100e-9 2.5e-9 n)
  /\ PrimFloat.eqb (PrimFloat.div 300e-9 2.5e-9) 120 = false.
Proof.
  split; [reflexivity|]. split; [reflexivity|].
  split; [|split; [apply x_edge_binary64_value|
                   split; [apply y_edge_binary64_value|reflexivity]]].
  intros [n H]. inversion H as [|? k ? ? Hx _]; subst.
  apply (proj1 x_edge_binary64_value). exists k. exact Hx.
Qed.

(** C7, amended: in exact decimal arithmetic on the literals as written,
    the edge lengths 300e-9, 100e-9 and 10e-9 are 120, 40 and 2 times the
    cell edges.  The run passes the binary64 numbers nearest to the
    literals; on them the edge lengths are 120, 40 and 2 times the cell
    edges in rounded binary64 multiplication, the quotients of the edge
    lengths by the cell edges are 119.99999999999999, 40 and 2, and their
    nearest integers give the grid 120 x 40 x 2.  The mesh is built over
    the region built from these corner points. *)
Theorem mesh_tiling :
  Forall2 Qeq (edges_Q region_p1_src region_p2_src)
    (map dec_Q [Dec 300 (-9); Dec 100 (-9); Dec 10 (-9)])
  /\ tiles_Q region_p1_src region_p2_src mesh_cell_src [120; 40; 2]
  /\ map num_float region_p1 = map dec_float region_p1_src
  /\ map num_float region_p2 = map dec_float region_p2_src
  /\ map num_float mesh_cell = map dec_float mesh_cell_src
  /\ trace final_state !! 27%nat
     = Some (EvCall (VGet (VModule "discretisedfield") "Region") []
               [("p1", VTuple (map of_num region_p1));
                ("p2", VTuple (map of_num region_p2))])
  /\ trace final_state !! 29%nat
     = Some (EvCall (VGet (VModule "discretisedfield") "Mesh") []
               [("region", region_obj);
                ("cell", VTuple (map of_num mesh_cell))])
  /\ edges region_p1 region_p2 = [300e-9; 100e-9; 10e-9]%float
  /\ tiles region_p1 region_p2 mesh_cell [120; 40; 2]
  /\ quotients region_p1 region_p2 mesh_cell
     = [119.99999999999999; 40; 2]%float
  /\ Forall2 nearest (quotients region_p1 region_p2 mesh_cell) [120; 40; 2].
Proof.
  split; [repeat constructor|].
  split; [repeat constructor|].
  split; [apply literals_rounded|].
  split; [apply literals_rounded|].
  split; [apply literals_rounded|].
  split; [apply mesh_arguments|].
  split; [apply mesh_arguments|].
  split; [reflexivity|].
  split; [reflexivity|].
  split; [reflexivity|].
  repeat constructor.
Qed.

(** ** Bindings that no later statement touches *)

Section Preserves.
Context (x : string).

Lemma preserves_reads_only {A} (c : nb A) : reads_only c -> preserves x c.
Proof. intros H s. rewrite (H s). reflexivity. Qed.

Lemma preserves_ret {A} (a : A) : preserves x (ret a).
Proof. apply preserves_reads_only, reads_only_ret. Qed.

Lemma preserves_lift {A} (r : result A) : preserves x (lift r).
Proof. apply preserves_reads_only, reads_only_lift. Qed.

Lemma preserves_name (y : string) : preserves x (name y).
Proof. apply preserves_reads_only, reads_only_name. Qed.

Lemma preserves_raise {A} (e : exn) : preserves x (raise (A := A) e).
Proof. apply preserves_reads_only, reads_only_raise. Qed.

Lemma preserves_emit (ev : event) : preserves x (emit ev).
Proof. intros s. reflexivity. Qed.

Lemma preserves_bind {A B} (c : nb A) (k : A -> nb B) :
  preserves x c -> (forall a, preserves x (k a)) -> preserves x (bind c k).
Proof.
  intros Hc Hk s. unfold bind. specialize (Hc s).
  destruct (c s) as [[a|e] s0]; simpl in Hc.
  - rewrite (Hk a s0). exact Hc.
  - exact Hc.
Qed.

Lemma preserves_seq {A} (cs : list (nb A)) :
  Forall (preserves x) cs -> preserves x (seq_ cs).
Proof.
  induction 1 as [|c cs Hc _ IH]; simpl.
  - apply preserves_ret.
  - apply preserves_bind; [exact Hc|]. intros a.
    apply preserves_bind; [exact IH|]. intros r. apply preserves_ret.
Qed.

Lemma preserves_keyed {A} (kcs : list (string * nb A)) :
  Forall (fun kc => preserves x kc.2) kcs ->
  Forall (preserves x) (map keyed kcs).
Proof.
  induction 1 as [|kc kcs Hc _ IH]; simpl; constructor; [|exact IH].
  apply preserves_bind; [exact Hc|]. intros a. apply preserves_ret.
Qed.

Lemma preserves_tuple (es : list (nb value)) :
  Forall (preserves x) es -> preserves x (tuple_ es).
Proof.
  intros H. apply preserves_bind; [apply preserves_seq, H|].
  intros vs. apply preserves_ret.
Qed.

Lemma preserves_list (es : list (nb value)) :
  Forall (preserves x) es -> preserves x (list_ es).
Proof.
  intros H. apply preserves_bind; [apply preserves_seq, H|].
  intros vs. apply preserves_ret.
Qed.

Lemma preserves_dict (es : list (nb value * nb value)) :
  Forall (fun kv => preserves x kv.1 /\ preserves x kv.2) es ->
  preserves x (dict_ es).
Proof.
  intros H. apply preserves_bind; [|intros kvs; apply preserves_ret].
  apply preserves_seq.
  induction H as [|kv es [Hk Hv] _ IH]; simpl; constructor; [|exact IH].
  apply preserves_bind; [exact Hk|]. intros k.
  apply preserves_bind; [exact Hv|]. intros v. apply preserves_ret.
Qed.

Lemma preserves_attr (e : nb value) (a : string) :
  preserves x e -> preserves x (attr e a).
Proof.
  intros H. apply preserves_bind; [exact H|]. intros o.
  destruct (is_external o); [apply preserves_ret|apply preserves_raise].
Qed.

Lemma preserves_item (e k : nb value) :
  preserves x e -> preserves x k -> preserves x (item e k).
Proof.
  intros He Hk. apply preserves_bind; [exact He|]. intros o.
  apply preserves_bind; [exact Hk|]. intros i.
  destruct (is_external o); [apply preserves_ret|apply preserves_raise].
Qed.

Lemma preserves_call (f : nb value) (args : list (nb value))
    (kwargs : list (string * nb value)) :
  preserves x f -> Forall (preserves x) args ->
  Forall (fun kc => preserves x kc.2) kwargs ->
  preserves x (call f args kwargs).
Proof.
  intros Hf Ha Hk. apply preserves_bind; [exact Hf|]. intros c.
  apply preserves_bind; [apply preserves_seq, Ha|]. intros vs.
  apply preserves_bind; [apply preserves_seq, preserves_keyed, Hk|].
  intros kws.
  destruct (is_external c); [|apply preserves_raise].
  apply preserves_bind; [apply preserves_emit|]. intros _.
  apply preserves_ret.
Qed.

Lemma preserves_binop (op : string) (l r : nb value) :
  preserves x l -> preserves x r -> preserves x (binop op l r).
Proof.
  intros Hl Hr. apply preserves_bind; [exact Hl|]. intros a.
  apply preserves_bind; [exact Hr|]. intros b.
  destruct (is_external a || is_external b);
    [apply preserves_ret|apply preserves_raise].
Qed.

Lemma preserves_neg (e : nb value) : preserves x e -> preserves x (neg e).
Proof.
  intros H. apply preserves_bind; [exact H|]. intros v. apply preserves_lift.
Qed.

Lemma preserves_assign (y : string) (e : nb value) :
  x <> y -> preserves x e -> preserves x (assign y e).
Proof.
  intros Hxy He. apply preserves_bind; [exact He|]. intros v.
  intros s. simpl. apply lookup_insert_ne. congruence.
Qed.

Lemma preserves_set_attr (o : nb value) (a : string) (e : nb value) :
  preserves x o -> preserves x e -> preserves x (set_attr o a e).
Proof.
  intros Ho He. apply preserves_bind; [exact He|]. intros v.
  apply preserves_bind; [exact Ho|]. intros t.
  destruct (is_external t); [apply preserves_emit|apply preserves_raise].
Qed.

Lemma preserves_import_as (m y : string) :
  x <> y -> preserves x (import_as m y).
Proof.
  intros Hxy. apply preserves_bind; [apply preserves_emit|]. intros _.
  apply preserves_assign; [exact Hxy|apply preserves_ret].
Qed.

Lemma preserves_def (f : string) : x <> f -> preserves x (def f).
Proof. intros Hxf. apply preserves_assign; [exact Hxf|apply preserves_ret]. Qed.

Lemma preserves_expr (e : nb value) : preserves x e -> preserves x (expr e).
Proof.
  intros H. apply preserves_bind; [exact H|]. intros v. apply preserves_ret.
Qed.

Lemma preserves_magic (line : string) : preserves x (magic line).
Proof. apply preserves_emit. Qed.

(** A binding that every statement preserves holds all along the run. *)
Lemma trajectory_preserves (cs : list (nb unit)) (s : state) (v : value) :
  Forall (preserves x) cs ->
  globals s !! x = Some v ->
  Forall (fun s' => globals s' !! x = Some v) (trajectory cs s).
Proof.
  intros H. revert s. induction H as [|c cs Hc _ IH]; intros s Hs; simpl.
  - constructor.
  - specialize (Hc s).
    destruct (c s) as [[[]|e] s0]; simpl in Hc; rewrite <- Hc in Hs.
    + constructor; [exact Hs|]. apply IH, Hs.
    + constructor; [exact Hs|constructor].
Qed.

End Preserves.

Ltac frame_step :=
  lazymatch goal with
  | |- Forall _ [] => constructor
  | |- Forall _ (_ :: _) => constructor
  | |- preserves _ (fst _) => cbn [fst]
  | |- preserves _ (snd _) => cbn [snd]
  | |- _ /\ _ => split
  | |- _ <> _ => discriminate
  | |- preserves _ (call _ _ _) => apply preserves_call
  | |- preserves _ (attr _ _) => apply preserves_attr
  | |- preserves _ (item _ _) => apply preserves_item
  | |- preserves _ (binop _ _ _) => apply preserves_binop
  | |- preserves _ (neg _) => apply preserves_neg
  | |- preserves _ (tuple_ _) => apply preserves_tuple
  | |- preserves _ (list_ _) => apply preserves_list
  | |- preserves _ (dict_ _) => apply preserves_dict
  | |- preserves _ (name _) => apply preserves_name
  | |- preserves _ (int _) => apply preserves_ret
  | |- preserves _ (flt _) => apply preserves_ret
  | |- preserves _ (str _) => apply preserves_ret
  | |- preserves _ true_ => apply preserves_ret
  | |- preserves _ (assign _ _) => apply preserves_assign
  | |- preserves _ (set_attr _ _ _) => apply preserves_set_attr
  | |- preserves _ (import_as _ _) => apply preserves_import_as
  | |- preserves _ (def _) => apply preserves_def
  | |- preserves _ (expr _) => apply preserves_expr
  | |- preserves _ (magic _) => apply preserves_magic
  end.

Ltac frame := repeat frame_step.

Lemma after_constants_preserve :
  Forall (fun st => Forall (fun xv => preserves xv.1 st) constants)
    after_constants.
Proof.
  cbv [after_constants app constants
       cell_8 cell_9 cell_11 cell_12 cell_13 cell_14 cell_15 cell_17 cell_18
       cell_19 cell_21 cell_22 cell_23 cell_25 cell_26 cell_27 cell_29
       cell_30 cell_31 cell_33 cell_34 cell_35 cell_36 cell_37 cell_39
       cell_40 cell_41 cell_42 cell_44 cell_45 cell_46 cell_47
       plot_m_z plot_m_hv hv_kw ltem_kw holo_kw].
  frame.
Qed.

Lemma trajectory_constants (cs : list (nb unit)) (s : state) :
  Forall (fun st => Forall (fun xv => preserves xv.1 st) constants) cs ->
  constants_bound s ->
  Forall constants_bound (trajectory cs s).
Proof.
  intros H. revert s. induction H as [|c cs Hc _ IH]; intros s Hs; simpl.
  - constructor.
  - assert (constants_bound (c s).2) as Hs0.
    { unfold constants_bound in *.
      rewrite Forall_forall in Hc, Hs. apply Forall_forall.
      intros xv Hxv. rewrite (Hc _ Hxv s). apply Hs, Hxv. }
    destruct (c s) as [[[]|e] s0]; simpl in Hs0.
    + constructor; [exact Hs0|]. apply IH, Hs0.
    + constructor; [exact Hs0|constructor].
Qed.

Lemma constants_bound_after_cell_7 : constants_bound state_after_constants.
Proof.
  unfold constants_bound, constants.
  repeat constructor; vm_compute; reflexivity.
Qed.

(** C8: the constants of cell 7 are bound once; every later statement
    leaves each binding as it found it, in whatever state it runs and
    whether it returns or raises, so all along the run they hold the values
    of cell 7.  The damping and current parameters are given to one call
    each, and the term built from them is assigned to [system.dynamics]
    once.  The attribute writes of the whole run are exactly four:
    [energy], [m] and [dynamics] of the system and [subregions] of
    [phase_shift.mesh]; none writes into a constant or into the dynamics
    term. *)
Theorem constants_never_rebound :
  run (before_constants ++ cell_7) init_state = (Ok tt, state_after_constants)
  /\ constants_bound state_after_constants
  /\ run after_constants state_after_constants = (Ok tt, final_state)
  /\ run notebook init_state = (Ok tt, final_state)
  /\ Forall (fun st => Forall (fun xv => preserves xv.1 st) constants)
       after_constants
  /\ Forall constants_bound (trajectory after_constants state_after_constants)
  /\ length (trajectory after_constants state_after_constants)
     = length after_constants
  /\ Forall (fun xv => bind_count xv.1 (trace final_state) = 1%nat) constants
  /\ forallb writes_external_only (trace final_state) = true
  /\ List.filter (calls_mm "Damping") (trace final_state)
     = [EvCall (VGet (VModule "micromagneticmodel") "Damping") []
          [("alpha", VFloat 0.3)]]
  /\ List.filter (calls_mm "ZhangLi") (trace final_state)
     = [EvCall (VGet (VModule "micromagneticmodel") "ZhangLi") []
          [("u", VInt 300); ("beta", VFloat 0.5)]]
  /\ length (List.filter (sets_attr "dynamics") (trace final_state)) = 1%nat
  /\ exists ve vm ps vs,
       globals final_state !! "system" = Some system_obj
       /\ globals final_state !! "phase_shift" = Some ps
       /\ attr_writes (trace final_state)
          = [(system_obj, "energy", ve); (system_obj, "m", vm);
             (system_obj, "dynamics", dynamics_value);
             (VGet ps "mesh", "subregions", vs)].
Proof.
  split; [vm_compute; reflexivity|].
  split; [apply constants_bound_after_cell_7|].
  split; [vm_compute; reflexivity|].
  split; [apply run_notebook|].
  split; [apply after_constants_preserve|].
  split.
  { apply trajectory_constants;
      [apply after_constants_preserve|apply constants_bound_after_cell_7]. }
  split; [vm_compute; reflexivity|].
  split; [unfold constants; repeat constructor; vm_compute; reflexivity|].
  split; [vm_compute; reflexivity|].
  split; [vm_compute; reflexivity|].
  split; [vm_compute; reflexivity|].
  split; [vm_compute; reflexivity|].
  do 4 eexists. repeat split; vm_compute; reflexivity.
Qed.

(** * Further properties of the two functions and of the run *)

(** ** Order on binary64 numbers *)

Lemma SFcompare_lt_le (a b c : spec_float) :
  SFltb a b = true -> SFleb b c = true -> SFltb a c = true.
Proof.
  unfold SFltb, SFleb.
  destruct a as [sa|sa| |sa ma ea], b as [sb|sb| |sb mb eb],
    c as [sc|sc| |sc mc ec];
    try destruct sa; try destruct sb; try destruct sc; simpl;
    try discriminate; try reflexivity;
    destruct (Z.compare_spec ea eb), (Z.compare_spec eb ec),
      (Z.compare_spec ea ec);
    simpl; try discriminate; try reflexivity; try lia; subst;
    rewrite ?Pos.compare_cont_spec; simpl;
    destruct (Pos.compare_spec ma mb), (Pos.compare_spec mb mc),
      (Pos.compare_spec ma mc);
    simpl; try discriminate; try reflexivity; try lia.
Qed.

Lemma SFcompare_le_lt (a b c : spec_float) :
  SFleb a b = true -> SFltb b c = true -> SFltb a c = true.
Proof.
  unfold SFltb, SFleb.
  destruct a as [sa|sa| |sa ma ea], b as [sb|sb| |sb mb eb],
    c as [sc|sc| |sc mc ec];
    try destruct sa; try destruct sb; try destruct sc; simpl;
    try discriminate; try reflexivity;
    destruct (Z.compare_spec ea eb), (Z.compare_spec eb ec),
      (Z.compare_spec ea ec);
    simpl; try discriminate; try reflexivity; try lia; subst;
    rewrite ?Pos.compare_cont_spec; simpl;
    destruct (Pos.compare_spec ma mb), (Pos.compare_spec mb mc),
      (Pos.compare_spec ma mc);
    simpl; try discriminate; try reflexivity; try lia.
Qed.

Lemma float_lt_le (a b c : float) :
  PrimFloat.ltb a b = true -> PrimFloat.leb b c = true ->
  PrimFloat.ltb a c = true.
Proof. rewrite !ltb_spec, leb_spec. apply SFcompare_lt_le. Qed.

Lemma float_le_lt (a b c : float) :
  PrimFloat.leb a b = true -> PrimFloat.ltb b c = true ->
  PrimFloat.ltb a c = true.
Proof. rewrite !ltb_spec, leb_spec. apply SFcompare_le_lt. Qed.

(** The sign of a binary64 number, as its comparison with the integer 0
    reports it. *)
Lemma float_cmp_Z_0 (f : float) :
  float_cmp_Z f 0 =
  match Prim2SF f with
  | S754_nan => None
  | S754_infinity s | S754_finite s _ _ => Some (if s then Lt else Gt)
  | S754_zero _ => Some Eq
  end.
Proof.
  unfold float_cmp_Z. destruct (Prim2SF f) as [s|s| |s m e]; try reflexivity.
  - destruct s; reflexivity.
  - destruct (0 <=? e) eqn:He.
    + apply Z.leb_le in He. f_equal.
      pose proof (Z.pow_pos_nonneg 2 e ltac:(lia) He).
      destruct s; [apply Z.compare_lt_iff|apply Z.compare_gt_iff]; nia.
    + destruct s; reflexivity.
Qed.

Lemma positive_le (x x' : float) :
  num_ltb (NInt 0) (NFloat x) = true -> PrimFloat.leb x x' = true ->
  num_ltb (NInt 0) (NFloat x') = true.
Proof.
  cbn [num_ltb]. rewrite !float_cmp_Z_0, leb_spec. unfold SFleb.
  destruct (Prim2SF x) as [s|s| |s m e], (Prim2SF x') as [s'|s'| |s' m' e'];
    try destruct s; try destruct s'; cbv [SFcompare];
    try discriminate; try reflexivity.
Qed.

(** A number in the reversed strip is not positive. *)
Lemma strip_not_positive (x : num) :
  in_strip x = true -> num_ltb (NInt 0) x = false.
Proof.
  unfold in_strip. rewrite andb_true_iff. intros [_ H].
  destruct x as [n|f]; cbn [num_ltb] in *.
  - unfold float_cmp_Z in H.
    set (c := Prim2SF _) in H. vm_compute in c. subst c.
    cbv beta iota zeta in H.
    change (0 <=? -78) with false in H. cbv iota in H.
    change (- -78) with 78 in H.
    destruct (Z.compare_spec (Z.neg 6044629098073146) (n * 2 ^ 78))
      as [E|E|E]; try discriminate.
    apply Z.ltb_ge.
    assert (0 < 2 ^ 78) by (apply Z.pow_pos_nonneg; lia).
    nia.
  - rewrite float_cmp_Z_0. rewrite ltb_spec in H. unfold SFltb in H.
    set (c := Prim2SF (-20e-9)) in H. vm_compute in c. subst c.
    destruct (Prim2SF f) as [s|s| |s m e]; try destruct s;
      cbv [SFcompare] in H; try discriminate; reflexivity.
Qed.

Lemma num_abs_opp (y : num) (y' : value) :
  py_neg (of_num y) = Ok y' ->
  exists n, y' = of_num n /\ num_abs n = num_abs y.
Proof.
  destruct y as [n|f]; simpl; intros [= <-].
  - exists (NInt (- n)). split; [reflexivity|]. simpl. f_equal.
    apply Z.abs_opp.
  - exists (NFloat (- f)). split; [reflexivity|]. simpl. f_equal.
    apply Prim2SF_inj. rewrite !abs_spec, opp_spec.
    destruct (Prim2SF f); reflexivity.
Qed.

(** ** Outcomes of the two functions on any argument *)

Lemma iter_items_raise (p : value) (e : exn) :
  iter_items p = Raise e -> e = TypeError.
Proof. destruct p; simpl; congruence. Qed.

Lemma name_outcomes (x : string) (s : state) :
  (forall v, (name x s).1 = Ok v -> globals s !! x = Some v)
  /\ (forall e, (name x s).1 = Raise e ->
        e = NameError x /\ globals s !! x = None).
Proof.
  unfold name. destruct (globals s !! x); simpl; split;
    intros ? [=]; subst; auto.
Qed.

Lemma init_m_cases (p : value) (s : state) :
  init_m p s =
  (match iter_items p with
   | Ok [x; _; _] =>
       match to_num x with
       | Some n => Ok (if in_strip n then reversed else forward)
       | None => Raise TypeError
       end
   | Ok _ => Raise ValueError
   | Raise e => Raise e
   end, s).
Proof.
  cbv [init_m bind lift and_ ret py_lt unpack3 rbind in_strip].
  destruct (iter_items p) as [[|x [|y [|z [|w vs]]]]|e]; try reflexivity.
  cbv [to_num]. fold (to_num x).
  destruct (to_num x) as [n|]; [|reflexivity].
  destruct (num_ltb (NFloat (-60e-9)) n); [|reflexivity].
  destruct (num_ltb n (NFloat (-20e-9))); reflexivity.
Qed.

Lemma Ms_func_cases (p : value) (s : state) :
  Ms_func p s =
  match iter_items p with
  | Ok [x; y; _] =>
      match to_num x with
      | None => (Raise TypeError, s)
      | Some n =>
          if num_ltb (NInt 0) n then name "Ms" s
          else
            match to_num y with
            | None => (Raise TypeError, s)
            | Some m =>
                if num_ltb (num_abs m) (NFloat 20e-9) then name "Ms" s
                else (Ok (VInt 0), s)
            end
      end
  | Ok _ => (Raise ValueError, s)
  | Raise e => (Raise e, s)
  end.
Proof.
  cbv [Ms_func bind lift or_ ret py_gt py_lt py_abs unpack3 rbind].
  destruct (iter_items p) as [[|x [|y [|z [|w vs]]]]|e]; try reflexivity.
  change (to_num (VInt 0)) with (Some (NInt 0)).
  destruct (to_num x) as [n|]; [|reflexivity].
  destruct (num_ltb (NInt 0) n); [reflexivity|].
  destruct (to_num y) as [m|]; [|reflexivity].
  rewrite to_num_of_num. cbv [to_num].
  destruct (num_ltb (num_abs m) (NFloat 20e-9)); reflexivity.
Qed.

(** X1: on any argument of the notebook's own (None, bool, int, float,
    str, tuple, list, dict, function; no object of a library in it) and in
    any state, [init_m] leaves the state as it was; it returns exactly when
    the argument unpacks into three items the first of which is a number;
    what it returns is (0, 0, 1) or (0, 0, -1); what it raises is
    [TypeError] or [ValueError], and it raises [ValueError] whenever the
    argument unpacks into other than three items. *)
Theorem init_m_outcomes (p : value) (s : state) :
  own_argument p = true ->
  (init_m p s).2 = s
  /\ ((exists v, (init_m p s).1 = Ok v) <->
      exists x y z n, iter_items p = Ok [x; y; z] /\ to_num x = Some n)
  /\ (forall v, (init_m p s).1 = Ok v ->
        v = VTuple [VInt 0; VInt 0; VInt 1]
        \/ v = VTuple [VInt 0; VInt 0; VInt (-1)])
  /\ (forall e, (init_m p s).1 = Raise e -> e = TypeError \/ e = ValueError)
  /\ (forall vs, iter_items p = Ok vs -> length vs <> 3%nat ->
        (init_m p s).1 = Raise ValueError).
Proof.
  intros _.
  rewrite init_m_cases. simpl. split; [reflexivity|].
  destruct (iter_items p) as [[|x [|y [|z [|w vs]]]]|e] eqn:E;
    try destruct (to_num x) as [n|] eqn:En;
    (split; [split; [intros [v [=]]
                    | intros (?&?&?&?&[=]&?); congruence]|]) ||
    (split; [split; [intros _; eauto 6 | eauto]|]);
    (split; [intros v [= <-]; destruct (in_strip _); auto|]);
    (split; [intros e' [= <-]; auto;
             try (left; eapply iter_items_raise; eassumption)|]);
    intros vs' [= <-]; simpl; congruence.
Qed.

Lemma init_m_outcomes_witness :
  let p := VList [VFloat (-40e-9); VStr "y"; VNone] in
  (init_m p init_state).2 = init_state
  /\ ((exists v, (init_m p init_state).1 = Ok v) <->
      exists x y z n, iter_items p = Ok [x; y; z] /\ to_num x = Some n)
  /\ (forall v, (init_m p init_state).1 = Ok v ->
        v = VTuple [VInt 0; VInt 0; VInt 1]
        \/ v = VTuple [VInt 0; VInt 0; VInt (-1)])
  /\ (forall e, (init_m p init_state).1 = Raise e ->
        e = TypeError \/ e = ValueError)
  /\ (forall vs, iter_items p = Ok vs -> length vs <> 3%nat ->
        (init_m p init_state).1 = Raise ValueError).
Proof.
  intros p. apply (init_m_outcomes p init_state). reflexivity.
Defined.

(** X2: on any argument of the notebook's own and in any state, what
    [Ms_func] returns is the integer 0 or the value bound to [Ms]; what it
    raises is [TypeError], [ValueError], or [NameError] for [Ms], the last
    only in a state where [Ms] is unbound; it raises [ValueError] whenever
    the argument unpacks into other than three items. *)
Theorem Ms_func_outcomes (p : value) (s : state) :
  own_argument p = true ->
  (forall v, (Ms_func p s).1 = Ok v ->
     v = VInt 0 \/ globals s !! "Ms" = Some v)
  /\ (forall e, (Ms_func p s).1 = Raise e ->
        e = TypeError \/ e = ValueError
        \/ (e = NameError "Ms" /\ globals s !! "Ms" = None))
  /\ (forall vs, iter_items p = Ok vs -> length vs <> 3%nat ->
        (Ms_func p s).1 = Raise ValueError).
Proof.
  intros _.
  rewrite Ms_func_cases.
  destruct (name_outcomes "Ms" s) as [HOk HRaise].
  destruct (iter_items p) as [[|x [|y [|z [|w vs]]]]|e] eqn:E;
    try destruct (to_num x) as [n|];
    try destruct (num_ltb (NInt 0) n);
    try destruct (to_num y) as [m|];
    try destruct (num_ltb (num_abs m) (NFloat 20e-9));
    (split; [|split]);
    try (intros v Hv;
         first [ right; apply HOk, Hv
               | simpl in Hv; injection Hv as <-; left; reflexivity
               | discriminate Hv ]);
    try (intros e' He';
         first [ right; right; apply HRaise, He'
               | simpl in He'; injection He' as <-; auto; left;
                 eapply iter_items_raise; eassumption
               | discriminate He' ]);
    try (intros vs' [= <-] Hl; simpl in *; congruence).
Qed.

Lemma Ms_func_outcomes_witness :
  let p := VTuple [VInt 1; VNone; VNone] in
  (forall v, (Ms_func p init_state).1 = Ok v ->
     v = VInt 0 \/ globals init_state !! "Ms" = Some v)
  /\ (forall e, (Ms_func p init_state).1 = Raise e ->
        e = TypeError \/ e = ValueError
        \/ (e = NameError "Ms" /\ globals init_state !! "Ms" = None))
  /\ (forall vs, iter_items p = Ok vs -> length vs <> 3%nat ->
        (Ms_func p init_state).1 = Raise ValueError).
Proof.
  intros p. apply (Ms_func_outcomes p init_state). reflexivity.
Defined.

(** X3: where [Ms] is bound, on an argument of the notebook's own,
    [Ms_func] returns exactly when the argument unpacks into three items,
    the first is a number, and either that number is positive or the second
    item is a number too: with [x > 0] the second item is never looked
    at. *)
Theorem Ms_func_domain (p : value) (s : state) :
  own_argument p = true ->
  is_Some (globals s !! "Ms") ->
  (exists v, (Ms_func p s).1 = Ok v) <->
  exists x y z n,
    iter_items p = Ok [x; y; z] /\ to_num x = Some n
    /\ (num_ltb (NInt 0) n = true \/ is_Some (to_num y)).
Proof.
  intros _ [m Hm]. rewrite Ms_func_cases.
  assert (HMs : name "Ms" s = (Ok m, s))
    by (unfold name; rewrite Hm; reflexivity).
  rewrite !HMs.
  destruct (iter_items p) as [[|x [|y [|z [|w vs]]]]|e] eqn:E;
    try (split; [intros [v [=]] | intros (?&?&?&?&[=]&?)]; fail).
  destruct (to_num x) as [n|] eqn:En.
  2: { split; [intros [v [=]] | intros (?&?&?&?&[=]&?&?); congruence]. }
  destruct (num_ltb (NInt 0) n) eqn:Hn.
  { split; [intros _; exists x, y, z, n; auto | intros _; eauto]. }
  destruct (to_num y) as [k|] eqn:Ek.
  - split.
    + intros _. exists x, y, z, n. split; [reflexivity|]. split; [exact En|].
      right. rewrite Ek. eauto.
    + intros _. destruct (num_ltb (num_abs k) (NFloat 20e-9)); eauto.
  - split; [intros [v [=]]|].
    intros (x'&y'&z'&n'&[= <- <- <-]&En'&[H|[? H]]); congruence.
Qed.

Lemma Ms_func_domain_witness :
  (exists v, (Ms_func (VTuple [VInt 1; VNone; VNone]) final_state).1 = Ok v)
  <->
  exists x y z n,
    iter_items (VTuple [VInt 1; VNone; VNone]) = Ok [x; y; z]
    /\ to_num x = Some n
    /\ (num_ltb (NInt 0) n = true \/ is_Some (to_num y)).
Proof.
  apply (Ms_func_domain (VTuple [VInt 1; VNone; VNone]) final_state).
  - reflexivity.
  - exists (VFloat 5.8e5). vm_compute. reflexivity.
Defined.

(** ** Geometry of the mask and of the reversed strip *)

(** X4: the mask is mirror-symmetric in [y]: at numbers [x], [y],
    [Ms_func] does at (x, -y, z) what it does at (x, y, z). *)
Theorem Ms_func_mirror (x y : num) (y' z : value) (s : state) :
  py_neg (of_num y) = Ok y' ->
  Ms_func (VTuple [of_num x; y'; z]) s = Ms_func (pos x y z) s.
Proof.
  intros H. destruct (num_abs_opp _ _ H) as (n & -> & Hn).
  change (VTuple [of_num x; of_num n; z]) with (pos x n z).
  rewrite !Ms_func_pos. unfold inside. rewrite Hn. reflexivity.
Qed.

Lemma Ms_func_mirror_witness :
  Ms_func (VTuple [VFloat (-30e-9); VFloat (-10e-9); VFloat 0]) final_state
  = Ms_func (pos (NFloat (-30e-9)) (NFloat 10e-9) (VFloat 0)) final_state.
Proof.
  apply (Ms_func_mirror (NFloat (-30e-9)) (NFloat 10e-9)). reflexivity.
Defined.

(** X5: the reversed strip lies left of the junction: at a number [x]
    where [init_m] returns (0, 0, -1), [x > 0] fails, so [Ms_func] returns
    [Ms] exactly when [|y| < 20e-9] and the integer 0 otherwise. *)
Theorem reversed_in_wire (x y : num) (v w z : value) (s : state) :
  globals s !! "Ms" = Some (VFloat 5.8e5) ->
  init_m (VTuple [of_num x; v; w]) s
  = (Ok (VTuple [VInt 0; VInt 0; VInt (-1)]), s) ->
  Ms_func (pos x y z) s
  = (Ok (if num_ltb (num_abs y) (NFloat 20e-9)
         then VFloat 5.8e5 else VInt 0), s).
Proof.
  intros HMs. rewrite init_m_pos.
  destruct (in_strip x) eqn:Hx; [|discriminate]. intros _.
  rewrite Ms_func_pos. unfold inside.
  rewrite (strip_not_positive _ Hx). cbn [orb].
  destruct (num_ltb (num_abs y) (NFloat 20e-9)); [|reflexivity].
  unfold name. rewrite HMs. reflexivity.
Qed.

Lemma reversed_in_wire_witness :
  Ms_func (pos (NFloat (-40e-9)) (NFloat 30e-9) (VFloat 0)) final_state
  = (Ok (VInt 0), final_state).
Proof.
  apply (reversed_in_wire (NFloat (-40e-9)) (NFloat 30e-9)
           (VFloat 30e-9) (VFloat 0) (VFloat 0) final_state).
  - vm_compute. reflexivity.
  - reflexivity.
Defined.

Lemma Ms_func_returns_Ms (x y : num) (z : value) (s : state) :
  globals s !! "Ms" = Some (VFloat 5.8e5) ->
  Ms_func (pos x y z) s = (Ok (VFloat 5.8e5), s) <-> inside x y = true.
Proof.
  intros HMs. rewrite Ms_func_pos. unfold name. rewrite HMs.
  destruct (inside x y); split; congruence.
Qed.

(** X6: on binary64 coordinates the film extends to the right and towards
    the axis: if [Ms_func] returns [Ms] at (x, y), it returns [Ms] at every
    (x', y') with [x <= x'] and [|y'| <= |y|]. *)
Theorem footprint_monotone (x x' y y' : float) (z z' : value) (s : state) :
  globals s !! "Ms" = Some (VFloat 5.8e5) ->
  PrimFloat.leb x x' = true ->
  PrimFloat.leb (PrimFloat.abs y') (PrimFloat.abs y) = true ->
  Ms_func (pos (NFloat x) (NFloat y) z) s = (Ok (VFloat 5.8e5), s) ->
  Ms_func (pos (NFloat x') (NFloat y') z') s = (Ok (VFloat 5.8e5), s).
Proof.
  intros HMs Hx Hy. rewrite !(Ms_func_returns_Ms _ _ _ _ HMs).
  unfold inside. rewrite !orb_true_iff.
  intros [H|H]; [left|right].
  - eapply positive_le; eassumption.
  - cbn [num_ltb num_abs] in *. eapply float_le_lt; eassumption.
Qed.

Lemma footprint_monotone_witness :
  Ms_func (pos (NFloat 10e-9) (NFloat 5e-9) (VFloat 0)) final_state
  = (Ok (VFloat 5.8e5), final_state).
Proof.
  apply (footprint_monotone (-30e-9) 10e-9 (-10e-9) 5e-9
           (VFloat 0) (VFloat 0) final_state).
  - vm_compute. reflexivity.
  - reflexivity.
  - reflexivity.
  - vm_compute. reflexivity.
Defined.

(** X7: on binary64 coordinates the reversed region is an interval in
    [x]: if [init_m] returns (0, 0, -1) at [a] and at [b], it does at every
    [x] with [a <= x <= b]. *)
Theorem strip_interval (a b x : float) (v w : value) (s : state) :
  init_m (VTuple [VFloat a; v; w]) s
  = (Ok (VTuple [VInt 0; VInt 0; VInt (-1)]), s) ->
  init_m (VTuple [VFloat b; v; w]) s
  = (Ok (VTuple [VInt 0; VInt 0; VInt (-1)]), s) ->
  PrimFloat.leb a x = true -> PrimFloat.leb x b = true ->
  init_m (VTuple [VFloat x; v; w]) s
  = (Ok (VTuple [VInt 0; VInt 0; VInt (-1)]), s).
Proof.
  change (VFloat a) with (of_num (NFloat a)).
  change (VFloat b) with (of_num (NFloat b)).
  change (VFloat x) with (of_num (NFloat x)).
  rewrite !init_m_pos.
  destruct (in_strip (NFloat a)) eqn:Ha; [|discriminate].
  destruct (in_strip (NFloat b)) eqn:Hb; [|discriminate].
  intros _ _ Hax Hxb.
  unfold in_strip in *. rewrite andb_true_iff in Ha, Hb.
  destruct Ha as [Ha _], Hb as [_ Hb]. cbn [num_ltb] in *.
  rewrite (float_lt_le _ _ _ Ha Hax), (float_le_lt _ _ _ Hxb Hb).
  reflexivity.
Qed.

Lemma strip_interval_witness :
  init_m (VTuple [VFloat (-40e-9); VFloat 0; VFloat 0]) init_state
  = (Ok (VTuple [VInt 0; VInt 0; VInt (-1)]), init_state).
Proof.
  apply (strip_interval (-50e-9) (-30e-9) (-40e-9)); reflexivity.
Defined.

(** X8: a NaN coordinate fails every comparison: at [x] NaN [init_m]
    returns (0, 0, 1), and at [y] NaN [Ms_func] returns [Ms] or the integer
    0 according to [x > 0] alone, so a NaN position with [x > 0] failing is
    outside the film. *)
Theorem nan_coordinates (x : num) (v w z : value) (s : state) :
  init_m (VTuple [VFloat nan; v; w]) s
  = (Ok (VTuple [VInt 0; VInt 0; VInt 1]), s)
  /\ Ms_func (pos x (NFloat nan) z) s
     = (if num_ltb (NInt 0) x then name "Ms" s else (Ok (VInt 0), s))
  /\ Ms_func (pos (NFloat nan) (NFloat nan) z) s = (Ok (VInt 0), s).
Proof.
  split; [|split].
  - apply (init_m_pos (NFloat nan)).
  - rewrite Ms_func_pos. unfold inside.
    change (num_ltb (num_abs (NFloat nan)) (NFloat 20e-9)) with false.
    rewrite orb_false_r. reflexivity.
  - apply Ms_func_pos.
Qed.

(** ** Bindings and order of the run *)

(** X9: the statements of the notebook bind 26 names and bind no name
    twice; at the end of the run each of them holds the value it was bound
    to. *)
Theorem single_assignment :
  NoDup (map fst (bindings (trace final_state)))
  /\ Forall (fun xv => globals final_state !! xv.1 = Some xv.2)
       (bindings (trace final_state))
  /\ length (bindings (trace final_state)) = 26%nat.
Proof.
  split; [|split].
  - vm_compute. apply (bool_decide_unpack _). vm_compute. reflexivity.
  - let t := eval vm_compute in (bindings (trace final_state)) in
    change (bindings (trace final_state)) with t.
    repeat constructor; vm_compute; reflexivity.
  - vm_compute. reflexivity.
Qed.



